(** * Benchmark parsers, performance analyzer and metric formatters

    A shallow embedding of [skills/perf_analyzer/parsers.py],
    [skills/perf_analyzer/analyzer.py] and the [MetricFormatter] of
    [skills/tech_report/formatters.py], with the properties their
    specification states.

    Conventions of the embedding:
    - a Python [str] is a [string] (a sequence of bytes, the UTF-8 encoding
      of the text); the character classes [\d], [\s], [str.strip] and
      [str.lower] are the ASCII ones;
    - a Python [float] is a primitive binary64 [float]; every arithmetic
      operation is the IEEE 754 one, rounded to nearest even;
    - a function that can raise returns a [Py.result];
    - [datetime.now()] timestamps are not part of the records: nothing in the
      embedded code reads them. *)

From Stdlib Require Import ZArith List String Ascii Bool Lia Floats DecimalString.
Import ListNotations.
Set Warnings "-inexact-float,-register-all".

Open Scope string_scope.
Open Scope Z_scope.

(** ** The Python runtime the code relies on *)

Module Py.

(** *** Exceptions *)

Inductive exn : Type :=
| ValueError (msg : string)
| TypeError (msg : string)
| ZeroDivisionError (msg : string)
| IndexError (msg : string)
| OverflowError (msg : string)
| StatisticsError (msg : string)
| AttributeError (msg : string).

Inductive result (A : Type) : Type :=
| Ok (a : A)
| Raise (e : exn).

Arguments Ok {A} a.
Arguments Raise {A} e.

Definition bind {A B : Type} (c : result A) (k : A -> result B) : result B :=
  match c with
  | Ok a => k a
  | Raise e => Raise e
  end.

Definition is_ok {A : Type} (c : result A) : bool :=
  match c with
  | Ok _ => true
  | Raise _ => false
  end.

(** *** Characters and strings *)

Definition code (c : ascii) : nat := nat_of_ascii c.

Definition in_range (lo hi : nat) (c : ascii) : bool :=
  (Nat.leb lo (code c) && Nat.leb (code c) hi)%bool.

(** [str.isspace] on ASCII: TAB..CR, FS..US and the space. *)
Definition is_space (c : ascii) : bool :=
  (in_range 9 13 c || in_range 28 32 c)%bool.

Definition is_digit (c : ascii) : bool := in_range 48 57 c.

Definition is_upper (c : ascii) : bool := in_range 65 90 c.

Definition is_alpha (c : ascii) : bool :=
  (in_range 65 90 c || in_range 97 122 c)%bool.

Definition digit_value (c : ascii) : Z := Z.of_nat (code c) - 48.

Definition lower_char (c : ascii) : ascii :=
  if is_upper c then ascii_of_nat (code c + 32) else c.

(** [s.lower()] *)
Fixpoint lower (s : string) : string :=
  match s with
  | EmptyString => EmptyString
  | String c s' => String (lower_char c) (lower s')
  end.

(** The whitespace of C's [isspace], which [float] and [int] skip at both
    ends of their argument. *)
Definition is_c_space (c : ascii) : bool :=
  (in_range 9 13 c || in_range 32 32 c)%bool.

Fixpoint lstrip_with (cls : ascii -> bool) (s : string) : string :=
  match s with
  | EmptyString => EmptyString
  | String c s' => if cls c then lstrip_with cls s' else s
  end.

Fixpoint rstrip_with (cls : ascii -> bool) (s : string) : string :=
  match s with
  | EmptyString => EmptyString
  | String c s' =>
      match rstrip_with cls s' with
      | EmptyString => if cls c then EmptyString else String c EmptyString
      | r => String c r
      end
  end.

Definition strip_with (cls : ascii -> bool) (s : string) : string :=
  rstrip_with cls (lstrip_with cls s).

(** [s.strip()] *)
Definition strip (s : string) : string := strip_with is_space s.

(** [s.split(sep)] for a one-character separator. *)
Fixpoint split (sep : ascii) (s : string) : list string :=
  match s with
  | EmptyString => [EmptyString]
  | String c s' =>
      if Ascii.eqb c sep then EmptyString :: split sep s'
      else match split sep s' with
           | h :: t => String c h :: t
           | [] => [String c EmptyString]
           end
  end.

(** [s.split(sep, 1)] when [sep] occurs in [s]: the text before the first
    occurrence and the text after it; [None] when [sep] does not occur. *)
Fixpoint split_once (sep : ascii) (s : string) : option (string * string) :=
  match s with
  | EmptyString => None
  | String c s' =>
      if Ascii.eqb c sep then Some (EmptyString, s')
      else match split_once sep s' with
           | Some (a, b) => Some (String c a, b)
           | None => None
           end
  end.

(** [s.startswith(p)] *)
Definition startswith (p s : string) : bool := String.prefix p s.

(** [needle in hay] *)
Fixpoint contains (needle hay : string) : bool :=
  (String.prefix needle hay ||
   match hay with
   | EmptyString => false
   | String _ hay' => contains needle hay'
   end)%bool.

Definition newline : ascii := ascii_of_nat 10.

(** [str(n)] for an integer. *)
Definition str_of_int (n : Z) : string := NilZero.string_of_int (Z.to_int n).

Definition str_of_nat (n : nat) : string := str_of_int (Z.of_nat n).

(** A [digitpart] of the numeric grammar: digits, with single underscores
    allowed between two digits. Returns the value, the number of digits and
    the rest of the text. *)
Fixpoint digitpart_tail (acc : Z) (cnt : nat) (s : string) : Z * nat * string :=
  match s with
  | String c s' =>
      if is_digit c then digitpart_tail (10 * acc + digit_value c) (S cnt) s'
      else if Ascii.eqb c "_" then
        match s' with
        | String c2 s'' =>
            if is_digit c2
            then digitpart_tail (10 * acc + digit_value c2) (S cnt) s''
            else (acc, cnt, s)
        | EmptyString => (acc, cnt, s)
        end
      else (acc, cnt, s)
  | EmptyString => (acc, cnt, s)
  end.

Definition digitpart (s : string) : option (Z * nat * string) :=
  match s with
  | String c s' =>
      if is_digit c then Some (digitpart_tail (digit_value c) 1 s') else None
  | EmptyString => None
  end.

Definition take_sign (s : string) : bool * string :=
  match s with
  | String "-" s' => (true, s')
  | String "+" s' => (false, s')
  | _ => (false, s)
  end.

(** [int(s)] for a string. *)
Definition int_of_str (s : string) : result Z :=
  let '(neg, body) := take_sign (strip_with is_c_space s) in
  match digitpart body with
  | Some (v, _, EmptyString) => Ok (if neg then - v else v)
  | _ => Raise (ValueError "invalid literal for int() with base 10")
  end.

(** *** Floats *)

Definition cond_neg (neg : bool) (n : Z) : Z := if neg then - n else n.

(** The binary64 value nearest to the integer [n]. *)
Definition round_int (n : Z) : spec_float := binary_normalize prec emax n 0 false.

(** The binary64 value nearest to the fraction [num / den], negated when
    [neg]. The mantissas given to [SFdiv] are exact, so the quotient is
    rounded once. *)
Definition round_ratio (neg : bool) (num den : positive) : spec_float :=
  SFdiv prec emax (S754_finite neg num 0) (S754_finite false den 0).

(** The binary64 value nearest to [m * 10 ^ e10], as [float(s)] computes it
    from the digits of [s]. *)
Definition float_of_decimal (neg : bool) (m e10 : Z) : float :=
  match m with
  | Zpos p =>
      if 0 <=? e10 then SF2Prim (round_int (cond_neg neg (m * 10 ^ e10)))
      else SF2Prim (round_ratio neg p (Z.to_pos (10 ^ (- e10))))
  | _ => if neg then neg_zero else zero
  end.

(** The [number [exponent]] part of the float grammar: the decimal mantissa
    and the power of ten. *)
Definition parse_exponent (s : string) : option Z :=
  match s with
  | EmptyString => Some 0
  | String c s' =>
      if (Ascii.eqb c "e" || Ascii.eqb c "E")%bool then
        let '(neg, body) := take_sign s' in
        match digitpart body with
        | Some (v, _, EmptyString) => Some (cond_neg neg v)
        | _ => None
        end
      else None
  end.

Definition parse_number (s : string) : option (Z * Z) :=
  let '(ip, s1) :=
    match digitpart s with
    | Some (v, _, r) => (Some v, r)
    | None => (None, s)
    end in
  let '(fp, s2) :=
    match s1 with
    | String "." r =>
        match digitpart r with
        | Some (v, n, r') => (Some (v, n), r')
        | None => (None, r)
        end
    | _ => (None, s1)
    end in
  let mant :=
    match ip, fp with
    | Some i, Some (f, n) => Some (i * 10 ^ Z.of_nat n + f, - Z.of_nat n)
    | Some i, None => Some (i, 0)
    | None, Some (f, n) => Some (f, - Z.of_nat n)
    | None, None => None
    end in
  match mant, parse_exponent s2 with
  | Some (m, e), Some x => Some (m, e + x)
  | _, _ => None
  end.

(** [float(s)] for a string: surrounding whitespace is dropped, then an
    optional sign and either [inf], [infinity], [nan] (in any case) or a
    decimal number; anything else raises [ValueError]. *)
Definition float_of_str (s : string) : result float :=
  let '(neg, body) := take_sign (strip_with is_c_space s) in
  let word := lower body in
  if (String.eqb word "inf" || String.eqb word "infinity")%bool
  then Ok (if neg then neg_infinity else infinity)
  else if String.eqb word "nan" then Ok nan
  else match parse_number body with
       | Some (m, e) => Ok (float_of_decimal neg m e)
       | None => Raise (ValueError "could not convert string to float")
       end.

(** [float(n)] for an integer. *)
Definition float_of_int (n : Z) : result float :=
  match round_int n with
  | S754_infinity _ => Raise (OverflowError "int too large to convert to float")
  | sf => Ok (SF2Prim sf)
  end.

(** [int(x)] for a float: truncation towards zero. *)
Definition int_of_float (x : float) : result Z :=
  match Prim2SF x with
  | S754_nan => Raise (ValueError "cannot convert float NaN to integer")
  | S754_infinity _ => Raise (OverflowError "cannot convert float infinity to integer")
  | S754_zero _ => Ok 0
  | S754_finite s m e =>
      Ok (cond_neg s (if 0 <=? e then Zpos m * 2 ^ e else Zpos m / 2 ^ (- e)))
  end.

(** [x / y] on floats. *)
Definition truediv (x y : float) : result float :=
  if (y =? 0)%float then Raise (ZeroDivisionError "float division by zero")
  else Ok (x / y)%float.

(** [n * x] for an integer [n] and a float [x]. *)
Definition mul_int_float (n : Z) (x : float) : result float :=
  match float_of_int n with
  | Ok fn => Ok (fn * x)%float
  | Raise e => Raise e
  end.

(** [x != y], [x > y] and [x >= y] on floats. *)
Definition fne (x y : float) : bool := negb (x =? y)%float.
Definition fgt (x y : float) : bool := (y <? x)%float.
Definition fge (x y : float) : bool := (y <=? x)%float.

Definition is_finite (x : float) : bool := PrimFloat.is_finite x.

(** *** Fixed-point formatting: [format(x, ".{p}f")] *)

Fixpoint zeros (n : nat) : string :=
  match n with
  | O => EmptyString
  | S n' => String "0" (zeros n')
  end.

(** [round_half_even num den] is the integer nearest to [num / den], ties to
    the even one ([0 <= num], [0 < den]). *)
Definition round_half_even (num den : Z) : Z :=
  let q := num / den in
  let r := num mod den in
  match Z.compare (2 * r) den with
  | Lt => q
  | Gt => q + 1
  | Eq => if Z.even q then q else q + 1
  end.

(** The digits of the natural number [n] with the decimal point [p] places
    from the right. *)
Definition fixed_digits (p : nat) (n : Z) : string :=
  let ds := str_of_int n in
  let ds := zeros (S p - String.length ds) ++ ds in
  let k := (String.length ds - p)%nat in
  if Nat.eqb p 0 then ds
  else substring 0 k ds ++ "." ++ substring k p ds.

Definition format_f (p : nat) (x : float) : string :=
  match Prim2SF x with
  | S754_nan => "nan"
  | S754_infinity s => if s then "-inf" else "inf"
  | S754_zero s => (if s then "-" else "") ++ fixed_digits p 0
  | S754_finite s m e =>
      let scaled :=
        if 0 <=? e then Zpos m * 2 ^ e * 10 ^ Z.of_nat p
        else round_half_even (Zpos m * 10 ^ Z.of_nat p) (2 ^ (- e)) in
      (if s then "-" else "") ++ fixed_digits p scaled
  end.

(** The digits [ds] with a comma before every group of three counted from
    the right. *)
Fixpoint group_thousands (ds : string) : string :=
  match ds with
  | EmptyString => EmptyString
  | String c ds' =>
      String c (if (Nat.eqb (String.length ds' mod 3) 0 && negb (String.eqb ds' ""))%bool
                then String "," (group_thousands ds')
                else group_thousands ds')
  end.

Fixpoint take_digits (s : string) : string * string :=
  match s with
  | String c s' =>
      if is_digit c then let '(ds, r) := take_digits s' in (String c ds, r)
      else (EmptyString, s)
  | EmptyString => (EmptyString, EmptyString)
  end.

(** [format(x, ",.{p}f")] *)
Definition format_f_grouped (p : nat) (x : float) : string :=
  let '(neg, body) :=
    match format_f p x with
    | String "-" r => (true, r)
    | r => (false, r)
    end in
  let '(ds, rest) := take_digits body in
  (if neg then "-" else "") ++ group_thousands ds ++ rest.

(** [format(x, ".{p}%")]: the value times 100, in fixed point, and a percent
    sign. *)
Definition format_pct (p : nat) (x : float) : string :=
  format_f p (x * 100)%float ++ "%".

(** *** Sequences of floats: [sorted], [min], [max] *)

(** [sorted] compares with [<] and is stable; on a sequence without NaN,
    where [<] is a strict weak order, its result is the one of a stable
    insertion sort. *)
Fixpoint insert_sorted (x : float) (l : list float) : list float :=
  match l with
  | [] => [x]
  | y :: l' => if (y <? x)%float then y :: insert_sorted x l' else x :: y :: l'
  end.

Definition sorted (l : list float) : list float := fold_right insert_sorted [] l.

(** [min(l)]: the first element that no later element is smaller than. *)
Definition py_min (l : list float) : result float :=
  match l with
  | [] => Raise (ValueError "min() arg is an empty sequence")
  | x :: l' => Ok (fold_left (fun cur item => if (item <? cur)%float then item else cur) l' x)
  end.

(** [max(l)] *)
Definition py_max (l : list float) : result float :=
  match l with
  | [] => Raise (ValueError "max() arg is an empty sequence")
  | x :: l' => Ok (fold_left (fun cur item => if (cur <? item)%float then item else cur) l' x)
  end.

(** [l[i]] for [0 <= i]. *)
Definition index {A : Type} (l : list A) (i : Z) : result A :=
  match nth_error l (Z.to_nat i) with
  | Some x => Ok x
  | None => Raise (IndexError "list index out of range")
  end.

End Py.

Declare Scope py_scope.
Delimit Scope py_scope with py.
Notation "x <- c ;; k" :=
  (match c with
   | Py.Ok x => k
   | Py.Raise e => Py.Raise e
   end)
  (at level 61, c at next level, right associativity) : py_scope.
Notation "' pat <- c ;; k" :=
  (match c with
   | Py.Ok pat => k
   | Py.Raise e => Py.Raise e
   end)
  (at level 61, pat pattern, c at next level, right associativity) : py_scope.
Open Scope py_scope.

(** ** The [re] module, for the patterns this program uses *)

Module Re.

(** Patterns: literals, greedy repetitions of a character class, capturing
    groups (never nested here), greedy options and sequences. *)
Inductive regex : Type :=
| Lit (s : string)
| Star (cls : ascii -> bool)
| Plus (cls : ascii -> bool)
| Group (r : regex)
| Opt (r : regex)
| Seq (r1 r2 : regex).

Fixpoint ngroups (r : regex) : nat :=
  match r with
  | Group r1 => S (ngroups r1)
  | Opt r1 => ngroups r1
  | Seq r1 r2 => (ngroups r1 + ngroups r2)%nat
  | _ => O
  end.

Fixpoint drop_prefix (p s : string) : option string :=
  match p, s with
  | EmptyString, _ => Some s
  | String a p', String b s' => if Ascii.eqb a b then drop_prefix p' s' else None
  | String _ _, EmptyString => None
  end.

(** The text between the start of [s] and the start of its suffix [s']. *)
Definition consumed (s s' : string) : string :=
  substring 0 (String.length s - String.length s') s.

Section Matcher.
Context {A : Type}.

(** [cls*], longest first, giving back one character at a time. *)
Fixpoint star (cls : ascii -> bool) (s : string) (k : string -> option A) : option A :=
  match s with
  | String c s' =>
      if cls c then
        match star cls s' k with
        | Some r => Some r
        | None => k s
        end
      else k s
  | EmptyString => k s
  end.

(** Backtracking match of [r] at the start of [s]; [caps] are the groups
    closed so far and [k] matches what follows. *)
Fixpoint rmatch (r : regex) (s : string) (caps : list (option string))
         (k : string -> list (option string) -> option A) : option A :=
  match r with
  | Lit l =>
      match drop_prefix l s with
      | Some s' => k s' caps
      | None => None
      end
  | Star cls => star cls s (fun s' => k s' caps)
  | Plus cls =>
      match s with
      | String c s' => if cls c then star cls s' (fun s'' => k s'' caps) else None
      | EmptyString => None
      end
  | Group r1 =>
      rmatch r1 s caps (fun s' caps' => k s' (caps' ++ [Some (consumed s s')])%list)
  | Opt r1 =>
      match rmatch r1 s caps k with
      | Some x => Some x
      | None => k s (caps ++ repeat None (ngroups r1))%list
      end
  | Seq r1 r2 => rmatch r1 s caps (fun s' caps' => rmatch r2 s' caps' k)
  end.
End Matcher.

(** A match object: its groups, [None] for a group that took no part. *)
Definition match_obj : Type := list (option string).

Definition match_at (r : regex) (s : string) : option match_obj :=
  rmatch r s [] (fun _ caps => Some caps).

(** [re.search(r, s)]: the match at the leftmost position that has one. *)
Fixpoint search (r : regex) (s : string) : option match_obj :=
  match match_at r s with
  | Some m => Some m
  | None =>
      match s with
      | EmptyString => None
      | String _ s' => search r s'
      end
  end.

(** [m.group(i)], for [1 <= i]. *)
Definition group (m : match_obj) (i : nat) : option string :=
  nth (i - 1) m None.

(** [\d], [\s], [[\d.]] and [[A-Za-z/]] *)
Definition d : ascii -> bool := Py.is_digit.
Definition s : ascii -> bool := Py.is_space.
Definition digit_or_dot (c : ascii) : bool := (Py.is_digit c || Ascii.eqb c ".")%bool.
Definition alpha_or_slash (c : ascii) : bool := (Py.is_alpha c || Ascii.eqb c "/")%bool.

End Re.

Infix ";;;" := Re.Seq (at level 65, right associativity).

(** ** The [statistics] module *)

Module Statistics.
Import Py.

(** The exact value [m * 2 ^ e] of a finite float ([as_integer_ratio]). *)
Definition exact (x : float) : Z * Z :=
  match Prim2SF x with
  | S754_finite s m e => (cond_neg s (Zpos m), e)
  | _ => (0, 0)
  end.

Definition dyadic_add (a b : Z * Z) : Z * Z :=
  let '(m1, e1) := a in
  let '(m2, e2) := b in
  let e := Z.min e1 e2 in
  (m1 * 2 ^ (e1 - e) + m2 * 2 ^ (e2 - e), e).

(** The exact sum of finite floats, a multiple of a power of two. *)
Definition exact_sum (xs : list float) : Z * Z :=
  fold_left (fun acc x => dyadic_add acc (exact x)) xs (0, 0).

(** The float nearest to [m * 2 ^ e / n] (for [0 < n]). *)
Definition round_div (m e n : Z) : float :=
  match m with
  | Z0 => zero
  | _ =>
      let num := if 0 <=? e then Z.abs m * 2 ^ e else Z.abs m in
      let den := if 0 <=? e then n else n * 2 ^ (- e) in
      SF2Prim (round_ratio (m <? 0) (Z.to_pos num) (Z.to_pos den))
  end.

(** [statistics.mean]: the sum is exact and rounded once, after the division;
    when a value is infinite or NaN the sum is the float sum of those
    values. *)
Definition mean (xs : list float) : result float :=
  match xs with
  | [] => Raise (StatisticsError "mean requires at least one data point")
  | _ =>
      let n := Z.of_nat (List.length xs) in
      if forallb is_finite xs then
        let '(m, e) := exact_sum xs in Ok (round_div m e n)
      else
        fn <- float_of_int n ;;
        Ok (fold_left PrimFloat.add (filter (fun x => negb (is_finite x)) xs) zero / fn)%float
  end.

(** [statistics.median]: the middle value of the sorted data, or the mean of
    the two middle values. *)
Definition median (xs : list float) : result float :=
  match xs with
  | [] => Raise (StatisticsError "no median for empty data")
  | _ =>
      let data := sorted xs in
      let n := List.length data in
      if Nat.odd n then Ok (nth (n / 2) data zero)
      else
        let i := (n / 2)%nat in
        Ok ((nth (i - 1) data zero + nth i data zero) / 2)%float
  end.

(** The exact sum of the squares of finite floats. *)
Definition exact_sum_sq (xs : list float) : Z * Z :=
  fold_left (fun acc x => let '(m, e) := exact x in dyadic_add acc (m * m, 2 * e)) xs (0, 0).

(** The float nearest to the square root of [num / den] ([0 <= num],
    [0 < den]): the integer square root of the fraction scaled by a power of
    four, kept with more than 53 bits and a sticky bit, is rounded once. *)
Definition sqrt_ratio (num den : Z) : spec_float :=
  match num with
  | Zpos _ =>
      let k := Z.max 0 ((112 - (Z.log2 num - Z.log2 den)) / 2 + 1) in
      let scaled := num * 4 ^ k in
      let qq := scaled / den in
      let q := Z.sqrt qq in
      let exact_root := ((scaled mod den =? 0) && (q * q =? qq))%bool in
      binary_round_aux prec emax false q (- k)
                       (if exact_root then loc_Exact else loc_Inexact Lt)
  | _ => S754_zero false
  end.

(** [statistics.stdev], as CPython 3.11 and 3.12 compute it: the sample
    variance is exact and its square root is rounded once. Fewer than two
    points raise [StatisticsError]; an infinite or NaN value, or a root
    beyond the float range, raises as well. *)
Definition stdev (xs : list float) : result float :=
  let n := Z.of_nat (List.length xs) in
  if n <? 2 then Raise (StatisticsError "stdev requires at least two data points")
  else if negb (forallb is_finite xs)
  then Raise (AttributeError "'float' object has no attribute 'numerator'")
  else
    let '(sx, ex) := exact_sum xs in
    let '(sxx, exx) := exact_sum_sq xs in
    let '(m, e) := dyadic_add (n * sxx, exx) (- (sx * sx), 2 * ex) in
    let num := if 0 <=? e then m * 2 ^ e else m in
    let den := if 0 <=? e then n * (n - 1) else n * (n - 1) * 2 ^ (- e) in
    match sqrt_ratio num den with
    | S754_infinity _ => Raise (OverflowError "integer division result too large for a float")
    | sf => Ok (SF2Prim sf)
    end.

End Statistics.

(** ** parsers.py *)

(** The values a [metadata] or [config] mapping holds: [matrix_size] is an
    integer, [matrix_dims] a string and [runs] a list of floats. *)
Inductive value : Type :=
| VInt (n : Z)
| VStr (s : string)
| VList (l : list float).

(** A [dict] with string keys, in insertion order. *)
Definition dict : Type := list (string * value).

Fixpoint dict_get (d : dict) (key : string) : option value :=
  match d with
  | [] => None
  | (k, v) :: d' => if String.eqb k key then Some v else dict_get d' key
  end.

(** [d[key] = v] *)
Fixpoint dict_set (d : dict) (key : string) (v : value) : dict :=
  match d with
  | [] => [(key, v)]
  | (k, v0) :: d' =>
      if String.eqb k key then (k, v) :: d' else (k, v0) :: dict_set d' key v
  end.

Module BenchmarkResult.
Record t : Type := mk {
  name : string;
  metric_type : string;
  value : float;
  metadata : dict
}.
End BenchmarkResult.

Module BenchmarkSuite.
Record t : Type := mk {
  name : string;
  results : list BenchmarkResult.t;
  config : dict
}.

(** The first result with the given name. *)
Definition get_metric (self : t) (name : string) : option BenchmarkResult.t :=
  find (fun r => String.eqb (BenchmarkResult.name r) name) (results self).

Definition get_all_metrics (self : t) (metric_type : string) : list BenchmarkResult.t :=
  filter (fun r => String.eqb (BenchmarkResult.metric_type r) metric_type) (results self).
End BenchmarkSuite.

(** [float(m.group(i))] *)
Definition float_of_group (g : option string) : Py.result float :=
  match g with
  | Some s => Py.float_of_str s
  | None => Py.Raise (Py.TypeError "float() argument must be a string or a real number")
  end.

Definition int_of_group (g : option string) : Py.result Z :=
  match g with
  | Some s => Py.int_of_str s
  | None => Py.Raise (Py.TypeError "int() argument must be a string or a real number")
  end.

Module CUDABenchmarkParser.
Import Re.

(** [r'Benchmarking (\d+)x(\d+)'] *)
Definition matrix_re : regex :=
  Lit "Benchmarking " ;;; Group (Plus d) ;;; Lit "x" ;;; Group (Plus d).

(** [r'Best time:\s*([\d.]+)ms'] *)
Definition time_re : regex :=
  Lit "Best time:" ;;; Star s ;;; Group (Plus digit_or_dot) ;;; Lit "ms".

(** [r'CUDA:\s*([\d.]+)\s*GFLOPS\s*\(([\d.]+)\s*TFLOPS\)'] *)
Definition cuda_re : regex :=
  Lit "CUDA:" ;;; Star s ;;; Group (Plus digit_or_dot) ;;; Star s ;;;
  Lit "GFLOPS" ;;; Star s ;;; Lit "(" ;;; Group (Plus digit_or_dot) ;;;
  Star s ;;; Lit "TFLOPS)".

(** [r'CPU:\s*([\d.]+)\s*GFLOPS'] *)
Definition cpu_re : regex :=
  Lit "CPU:" ;;; Star s ;;; Group (Plus digit_or_dot) ;;; Star s ;;; Lit "GFLOPS".

(** [current_config.get('matrix_dims', 'unknown')], as an f-string prints
    it; the parser only ever stores a string under that key. *)
Definition dims (current_config : dict) : string :=
  match dict_get current_config "matrix_dims" with
  | Some (VStr d) => d
  | _ => "unknown"
  end.

(** The loop over the lines, with the results so far and the running
    configuration. *)
Fixpoint parse_lines (lines : list string) (results : list BenchmarkResult.t)
         (current_config : dict) : Py.result (list BenchmarkResult.t * dict) :=
  match lines with
  | [] => Py.Ok (results, current_config)
  | line :: rest =>
      let line := Py.strip line in
      match search matrix_re line with
      | Some matrix_match =>
          size <- int_of_group (group matrix_match 1) ;;
          let current_config := dict_set current_config "matrix_size" (VInt size) in
          let current_config :=
            dict_set current_config "matrix_dims"
                     (VStr (Py.str_of_int size ++ "x" ++ Py.str_of_int size)) in
          parse_lines rest results current_config
      | None =>
      match search time_re line with
      | Some time_match =>
          time_ms <- float_of_group (group time_match 1) ;;
          parse_lines rest
            (results ++ [BenchmarkResult.mk
                           ("Execution Time (" ++ dims current_config ++ ")")
                           "ms" time_ms current_config])%list
            current_config
      | None =>
      match search cuda_re line with
      | Some cuda_match =>
          gflops <- float_of_group (group cuda_match 1) ;;
          tflops <- float_of_group (group cuda_match 2) ;;
          parse_lines rest
            (results ++ [BenchmarkResult.mk
                           ("CUDA Performance (" ++ dims current_config ++ ")")
                           "GFLOPS" gflops current_config;
                         BenchmarkResult.mk
                           ("CUDA Performance (" ++ dims current_config ++ ")")
                           "TFLOPS" tflops current_config])%list
            current_config
      | None =>
      match search cpu_re line with
      | Some cpu_match =>
          gflops <- float_of_group (group cpu_match 1) ;;
          parse_lines rest
            (results ++ [BenchmarkResult.mk
                           ("CPU Performance (" ++ dims current_config ++ ")")
                           "GFLOPS" gflops current_config])%list
            current_config
      | None => parse_lines rest results current_config
      end end end end
  end.

Definition parse (text : string) : Py.result BenchmarkSuite.t :=
  let lines := Py.split Py.newline (Py.strip text) in
  '(results, current_config) <- parse_lines lines [] [] ;;
  Py.Ok (BenchmarkSuite.mk "CUDA Benchmark Suite" results current_config).
End CUDABenchmarkParser.

(** What [json.loads] returns: [None], booleans, integers, floats, strings,
    lists and dictionaries. *)
Inductive json : Type :=
| JNull
| JBool (b : bool)
| JInt (n : Z)
| JFloat (x : float)
| JStr (s : string)
| JList (l : list json)
| JDict (d : list (string * json)).

(** [isinstance(v, (int, float))] and [float(v)]: a [bool] is an [int]. *)
Definition json_number (v : json) : option (Py.result float) :=
  match v with
  | JBool b => Some (Py.Ok (if b then 1 else 0)%float)
  | JInt n => Some (Py.float_of_int n)
  | JFloat x => Some (Py.Ok x)
  | _ => None
  end.

Module GenericBenchmarkParser.

  (** The metric cells of one CSV row: [headers[1:]] numbered from 1, each
      read from [values[i]]; a cell [float] rejects is skipped. *)
Fixpoint parse_cells (name : string) (values : list string) (i : nat)
         (headers : list string) (results : list BenchmarkResult.t)
  : Py.result (list BenchmarkResult.t) :=
  match headers with
  | [] => Py.Ok results
  | header :: headers' =>
      cell <- Py.index values (Z.of_nat i) ;;
      match Py.float_of_str cell with
      | Py.Ok value =>
          parse_cells name values (S i) headers'
                      (results ++ [BenchmarkResult.mk name header value []])%list
      | Py.Raise (Py.ValueError _) => parse_cells name values (S i) headers' results
      | Py.Raise e => Py.Raise e
      end
  end.

Fixpoint parse_rows (headers : list string) (lines : list string)
         (results : list BenchmarkResult.t) : Py.result (list BenchmarkResult.t) :=
  match lines with
  | [] => Py.Ok results
  | line :: rest =>
      if String.eqb (Py.strip line) "" then parse_rows headers rest results
      else
        let values := map Py.strip (Py.split "," line) in
        if negb (Nat.eqb (List.length values) (List.length headers))
        then parse_rows headers rest results
        else
          name <- Py.index values 0 ;;
          results <- parse_cells name values 1 (tl headers) results ;;
          parse_rows headers rest results
  end.

Definition parse_csv (text : string) : Py.result BenchmarkSuite.t :=
  let lines := Py.split Py.newline (Py.strip text) in
  if Nat.ltb (List.length lines) 2 then Py.Ok (BenchmarkSuite.mk "CSV Benchmark" [] [])
  else
    let headers := map Py.strip (Py.split "," (hd "" lines)) in
    results <- parse_rows headers (tl lines) [] ;;
    Py.Ok (BenchmarkSuite.mk "CSV Benchmark Suite" results []).

(** [r'([\d.]+)\s*([A-Za-z/]+)?'] *)
Definition value_re : Re.regex :=
  Re.Group (Re.Plus Re.digit_or_dot) ;;; Re.Star Re.s ;;;
  Re.Opt (Re.Group (Re.Plus Re.alpha_or_slash)).

Fixpoint parse_kv_lines (lines : list string) (results : list BenchmarkResult.t)
  : Py.result (list BenchmarkResult.t) :=
  match lines with
  | [] => Py.Ok results
  | line :: rest =>
      let line := Py.strip line in
      if String.eqb line "" then parse_kv_lines rest results
      else
        let parts :=
          if Py.contains ":" line then Py.split_once ":" line
          else if Py.contains "=" line then Py.split_once "=" line
          else None in
        match parts with
        | None => parse_kv_lines rest results
        | Some (part0, part1) =>
            let key := Py.strip part0 in
            let value_str := Py.strip part1 in
            match Re.search value_re value_str with
            | Some m =>
                value <- float_of_group (Re.group m 1) ;;
                let unit :=
                  match Re.group m 2 with
                  | Some u => if String.eqb u "" then "value" else u
                  | None => "value"
                  end in
                parse_kv_lines rest (results ++ [BenchmarkResult.mk key unit value []])%list
            | None => parse_kv_lines rest results
            end
        end
  end.

Definition parse_key_value (text : string) : Py.result BenchmarkSuite.t :=
  let lines := Py.split Py.newline (Py.strip text) in
  results <- parse_kv_lines lines [] ;;
  Py.Ok (BenchmarkSuite.mk "Key-Value Benchmark Suite" results []).

Section Json.
  (** [json.loads]: the decoded value, or [None] on a [JSONDecodeError]. *)
Variable json_loads : string -> option json.
(** How a decoded value that is not a string reads when it is used as a
    result's name. *)
Variable json_text : json -> string.

(** The numeric fields of one mapping, in order; [skip_name] leaves the
    ["name"] key out. *)
Fixpoint parse_fields (name : string) (skip_name : bool) (items : list (string * json))
         (results : list BenchmarkResult.t) : Py.result (list BenchmarkResult.t) :=
  match items with
  | [] => Py.Ok results
  | (key, value) :: items' =>
      if (skip_name && String.eqb key "name")%bool
      then parse_fields name skip_name items' results
      else
        match json_number value with
        | Some conv =>
            value <- conv ;;
            parse_fields name skip_name items'
                         (results ++ [BenchmarkResult.mk name key value []])%list
        | None => parse_fields name skip_name items' results
        end
  end.

Definition json_get (d : list (string * json)) (key : string) : option json :=
  match find (fun kv => String.eqb (fst kv) key) d with
  | Some (_, v) => Some v
  | None => None
  end.

Fixpoint parse_array (data : list json) (results : list BenchmarkResult.t)
  : Py.result (list BenchmarkResult.t) :=
  match data with
  | [] => Py.Ok results
  | JDict item :: data' =>
      let name :=
        match json_get item "name" with
        | Some (JStr n) => n
        | Some v => json_text v
        | None => "Unknown"
        end in
      results <- parse_fields name true item results ;;
      parse_array data' results
  | _ :: data' => parse_array data' results
  end.

Fixpoint parse_object (data : list (string * json)) (results : list BenchmarkResult.t)
  : Py.result (list BenchmarkResult.t) :=
  match data with
  | [] => Py.Ok results
  | (name, JDict metrics) :: data' =>
      results <- parse_fields name false metrics results ;;
      parse_object data' results
  | (name, metrics) :: data' =>
      match json_number metrics with
      | Some conv =>
          value <- conv ;;
          parse_object data' (results ++ [BenchmarkResult.mk name "value" value []])%list
      | None => parse_object data' results
      end
  end.

Definition parse_json (text : string) : Py.result BenchmarkSuite.t :=
  match json_loads text with
  | None => Py.Ok (BenchmarkSuite.mk "JSON Benchmark" [] [])
  | Some data =>
      results <-
        match data with
        | JList l => parse_array l []
        | JDict d => parse_object d []
        | _ => Py.Ok []
        end ;;
      Py.Ok (BenchmarkSuite.mk "JSON Benchmark Suite" results [])
  end.
End Json.
End GenericBenchmarkParser.

Module BenchmarkParserFactory.
Section Json.
Variable json_loads : string -> option json.
Variable json_text : json -> string.

Definition is_in (x : string) (l : list string) : bool :=
  existsb (String.eqb x) l.

(** [parse(text, format_hint)]; [format_hint] is [None] by default. *)
Definition parse (text : string) (format_hint : option string)
  : Py.result BenchmarkSuite.t :=
  if String.eqb (Py.strip text) "" then Py.Ok (BenchmarkSuite.mk "Empty Benchmark" [] [])
  else
    let text := Py.strip text in
    let detect :=
      if ((Py.startswith "{" text || Py.startswith "[" text)
          && match json_loads text with Some _ => true | None => false end)%bool
      then GenericBenchmarkParser.parse_json json_loads json_text text
      else if (Py.contains "CUDA" text || Py.contains "GFLOPS" text
               || Py.contains "TFLOPS" text)%bool
      then CUDABenchmarkParser.parse text
      else
        let lines := Py.split Py.newline text in
        if (Nat.leb 2 (List.length lines) && Py.contains "," (hd "" lines)
            && Nat.ltb 1 (List.length (Py.split "," (hd "" lines))))%bool
        then GenericBenchmarkParser.parse_csv text
        else GenericBenchmarkParser.parse_key_value text in
    match format_hint with
    | Some hint =>
        if String.eqb hint "" then detect
        else
          let format_hint := Py.lower hint in
          if is_in format_hint ["cuda"; "gpu"] then CUDABenchmarkParser.parse text
          else if String.eqb format_hint "csv" then GenericBenchmarkParser.parse_csv text
          else if String.eqb format_hint "json"
               then GenericBenchmarkParser.parse_json json_loads json_text text
          else if is_in format_hint ["kv"; "keyvalue"]
               then GenericBenchmarkParser.parse_key_value text
          else detect
    | None => detect
    end.
End Json.
End BenchmarkParserFactory.

(** ** analyzer.py *)

Module PerformanceMetrics.
Record t : Type := mk {
  mean : float;
  median : float;
  std_dev : float;
  min_val : float;
  max_val : float;
  percentile_25 : float;
  percentile_75 : float;
  percentile_95 : float;
  coefficient_of_variation : float
}.
End PerformanceMetrics.

Module ComparisonResult.
Record t : Type := mk {
  baseline_name : string;
  comparison_name : string;
  metric_type : string;
  baseline_value : float;
  comparison_value : float;
  absolute_diff : float;
  percent_change : float;
  speedup : float;
  is_improvement : bool;
  is_regression : bool
}.
End ComparisonResult.

Module Bottleneck.
Record t : Type := mk {
  component : string;
  severity : string;
  description : string;
  impact : float;
  recommendations : list string
}.
End Bottleneck.

Module AnalysisReport.
Record t : Type := mk {
  suite_name : string;
  metrics : list (string * PerformanceMetrics.t);
  comparisons : list ComparisonResult.t;
  bottlenecks : list Bottleneck.t;
  recommendations : list string;
  summary : string;
  raw_results : list BenchmarkResult.t
}.
End AnalysisReport.

Module PerformanceAnalyzer.
Import Py.

(** The analyzer's state: [self.history]. *)
Definition history : Type := list BenchmarkSuite.t.

Definition init : history := [].

Definition add_to_history (self : history) (suite : BenchmarkSuite.t) : history :=
  (self ++ [suite])%list.

Definition calculate_metrics (values : list float) : result PerformanceMetrics.t :=
  match values with
  | [] => Raise (ValueError "Cannot calculate metrics for empty list")
  | _ =>
      let sorted_vals := sorted values in
      let n := Z.of_nat (List.length sorted_vals) in
      mean_val <- Statistics.mean values ;;
      median_val <- Statistics.median values ;;
      std_dev_val <- (if 1 <? n then Statistics.stdev values else Ok 0%float) ;;
      p25 <- mul_int_float n 0.25 ;;
      p25_idx <- int_of_float p25 ;;
      p75 <- mul_int_float n 0.75 ;;
      p75_idx <- int_of_float p75 ;;
      p95 <- mul_int_float n 0.95 ;;
      p95_idx <- int_of_float p95 ;;
      min_val <- py_min values ;;
      max_val <- py_max values ;;
      percentile_25 <- index sorted_vals p25_idx ;;
      percentile_75 <- index sorted_vals p75_idx ;;
      percentile_95 <- index sorted_vals p95_idx ;;
      cv <- (if fne mean_val 0 then truediv std_dev_val mean_val else Ok 0%float) ;;
      Ok (PerformanceMetrics.mk mean_val median_val std_dev_val min_val max_val
                                percentile_25 percentile_75 percentile_95 cv)
  end.

Definition timing_metrics : list string := ["ms"; "seconds"; "s"; "time"].

(** [any(tm in metric_type.lower() for tm in timing_metrics)] *)
Definition is_timing (metric_type : string) : bool :=
  existsb (fun tm => contains tm (lower metric_type)) timing_metrics.

Definition compare_results (baseline comparison : BenchmarkResult.t)
  : result ComparisonResult.t :=
  let b := BenchmarkResult.value baseline in
  let c := BenchmarkResult.value comparison in
  if negb (String.eqb (BenchmarkResult.metric_type baseline)
                      (BenchmarkResult.metric_type comparison))
  then Raise (ValueError "Cannot compare results with different metric types")
  else
    let absolute_diff := (c - b)%float in
    percent_change <-
      (if fne b 0 then q <- truediv absolute_diff b ;; Ok (q * 100)%float
       else Ok 0%float) ;;
    '(speedup, is_improvement, is_regression) <-
      (if is_timing (BenchmarkResult.metric_type baseline) then
         speedup <- (if fne c 0 then truediv b c else Ok 0%float) ;;
         Ok (speedup, (c <? b)%float, fgt c (b * 1.05)%float)
       else
         speedup <- (if fne b 0 then truediv c b else Ok 0%float) ;;
         Ok (speedup, fgt c b, (c <? b * 0.95)%float)) ;;
    Ok (ComparisonResult.mk
          (BenchmarkResult.name baseline) (BenchmarkResult.name comparison)
          (BenchmarkResult.metric_type baseline) b c
          absolute_diff percent_change speedup is_improvement is_regression).

(** *** Bottleneck checks *)

Definition gpu_recommendations : list string :=
  ["Check for memory transfer bottlenecks between host and device";
   "Verify kernel launch configurations (grid/block dimensions)";
   "Profile memory access patterns - ensure coalesced access";
   "Consider using shared memory for frequently accessed data";
   "Check for thread divergence in kernel code"].

Definition timing_recommendations : list string :=
  ["Check for thermal throttling";
   "Verify no background processes interfering";
   "Consider running more warmup iterations";
   "Check for GPU frequency scaling"].

Definition bandwidth_recommendations : list string :=
  ["Optimize memory access patterns for coalescing";
   "Reduce memory traffic with shared memory";
   "Check for unnecessary data transfers";
   "Consider data layout transformations (AoS vs SoA)"].

Definition named_gflops (word : string) (r : BenchmarkResult.t) : bool :=
  (contains word (BenchmarkResult.name r)
   && String.eqb (BenchmarkResult.metric_type r) "GFLOPS")%bool.

(** The speedups of the pairs of [zip(cuda_results, cpu_results)] whose CPU
    value is positive. *)
Fixpoint pair_speedups (pairs : list (BenchmarkResult.t * BenchmarkResult.t))
         (speedups : list float) : result (list float) :=
  match pairs with
  | [] => Ok speedups
  | (cuda_res, cpu_res) :: rest =>
      if fgt (BenchmarkResult.value cpu_res) 0 then
        sp <- truediv (BenchmarkResult.value cuda_res) (BenchmarkResult.value cpu_res) ;;
        pair_speedups rest (speedups ++ [sp])%list
      else pair_speedups rest speedups
  end.

Definition gpu_utilization_check (suite : BenchmarkSuite.t)
           (bottlenecks : list Bottleneck.t) : result (list Bottleneck.t) :=
  let cuda_results := filter (named_gflops "CUDA") (BenchmarkSuite.results suite) in
  let cpu_results := filter (named_gflops "CPU") (BenchmarkSuite.results suite) in
  match cuda_results, cpu_results with
  | _ :: _, _ :: _ =>
      speedups <- pair_speedups (combine cuda_results cpu_results) [] ;;
      match speedups with
      | [] => Ok bottlenecks
      | _ =>
          avg_speedup <- Statistics.mean speedups ;;
          if (avg_speedup <? 10)%float then
            Ok (bottlenecks ++
                [Bottleneck.mk
                   "GPU Utilization"
                   (if (avg_speedup <? 5)%float then "critical" else "high")
                   ("GPU speedup is only " ++ format_f 1 avg_speedup
                      ++ "x over CPU (expected 10-100x)")
                   (100 - avg_speedup / 10 * 100)%float
                   gpu_recommendations])%list
          else Ok bottlenecks
      end
  | _, _ => Ok bottlenecks
  end.

(** [statistics.stdev(times) / statistics.mean(times)] for the value under
    [metadata['runs']]. *)
Definition runs_cv (times : list float) : result float :=
  sd <- Statistics.stdev times ;;
  mu <- Statistics.mean times ;;
  truediv sd mu.

Fixpoint timing_variance_check (time_results : list BenchmarkResult.t)
         (bottlenecks : list Bottleneck.t) : result (list Bottleneck.t) :=
  match time_results with
  | [] => Ok bottlenecks
  | r :: rest =>
      match dict_get (BenchmarkResult.metadata r) "runs" with
      | Some (VList times) =>
          if Nat.ltb 1 (List.length times) then
            cv <- runs_cv times ;;
            if fgt cv 0.1 then
              timing_variance_check rest
                (bottlenecks ++
                 [Bottleneck.mk
                    (BenchmarkResult.name r)
                    "medium"
                    ("High timing variance (CV: " ++ format_pct 1 cv ++ ")")
                    (cv * 100)%float
                    timing_recommendations])%list
            else timing_variance_check rest bottlenecks
          else timing_variance_check rest bottlenecks
      | Some (VInt n) =>
          if n =? 0 then timing_variance_check rest bottlenecks
          else Raise (TypeError "object of type 'int' has no len()")
      | Some (VStr t) =>
          if Nat.ltb 1 (String.length t)
          then Raise (TypeError "can't convert type 'str' to numerator/denominator")
          else timing_variance_check rest bottlenecks
      | None => timing_variance_check rest bottlenecks
      end
  end.

Fixpoint memory_bandwidth_check (bandwidth_results : list BenchmarkResult.t)
         (bottlenecks : list Bottleneck.t) : list Bottleneck.t :=
  match bandwidth_results with
  | [] => bottlenecks
  | r :: rest =>
      if (BenchmarkResult.value r <? 500)%float then
        let efficiency := (BenchmarkResult.value r / 900 * 100)%float in
        if (efficiency <? 60)%float then
          memory_bandwidth_check rest
            (bottlenecks ++
             [Bottleneck.mk
                "Memory Bandwidth"
                (if (efficiency <? 40)%float then "high" else "medium")
                ("Memory bandwidth at " ++ format_f 1 efficiency
                   ++ "% of theoretical peak")
                (100 - efficiency)%float
                bandwidth_recommendations])%list
        else memory_bandwidth_check rest bottlenecks
      else memory_bandwidth_check rest bottlenecks
  end.

(** [sorted(bottlenecks, key=lambda b: b.impact, reverse=True)]: stable,
    largest impact first. No impact is NaN. *)
Fixpoint insert_by_impact (b : Bottleneck.t) (l : list Bottleneck.t) : list Bottleneck.t :=
  match l with
  | [] => [b]
  | y :: l' =>
      if (Bottleneck.impact b <? Bottleneck.impact y)%float
      then y :: insert_by_impact b l'
      else b :: y :: l'
  end.

Definition sort_by_impact (l : list Bottleneck.t) : list Bottleneck.t :=
  fold_right insert_by_impact [] l.

Definition identify_bottlenecks (suite : BenchmarkSuite.t) : result (list Bottleneck.t) :=
  bottlenecks <- gpu_utilization_check suite [] ;;
  let time_results :=
    filter (fun r => String.eqb (BenchmarkResult.metric_type r) "ms")
           (BenchmarkSuite.results suite) in
  bottlenecks <- timing_variance_check time_results bottlenecks ;;
  let bandwidth_results :=
    filter (fun r => contains "GB/s" (BenchmarkResult.metric_type r))
           (BenchmarkSuite.results suite) in
  Ok (sort_by_impact (memory_bandwidth_check bandwidth_results bottlenecks)).

(** *** Recommendations *)

(** The values under [metadata['matrix_size']], as the set collects them;
    only integers can be compared with 8192. *)
Fixpoint matrix_sizes (results : list BenchmarkResult.t) : result (list Z) :=
  match results with
  | [] => Ok []
  | r :: rest =>
      match dict_get (BenchmarkResult.metadata r) "matrix_size" with
      | Some (VInt n) => sizes <- matrix_sizes rest ;; Ok (n :: sizes)
      | Some (VStr _) => Raise (TypeError "'>=' not supported between instances of 'str' and 'int'")
      | Some (VList _) => Raise (TypeError "unhashable type: 'list'")
      | None => matrix_sizes rest
      end
  end.

Definition generate_recommendations (suite : BenchmarkSuite.t)
           (bottlenecks : list Bottleneck.t) : result (list string) :=
  let recommendations := [] in
  let cuda_results :=
    filter (fun r => (contains "CUDA" (BenchmarkResult.name r)
                      && String.eqb (BenchmarkResult.metric_type r) "TFLOPS")%bool)
           (BenchmarkSuite.results suite) in
  recommendations <-
    match cuda_results with
    | [] => Ok recommendations
    | _ =>
        max_tflops <- py_max (map BenchmarkResult.value cuda_results) ;;
        if (max_tflops <? 15)%float then
          Ok (recommendations ++
              [("Performance is below expected levels for modern GPUs. "
                ++ "Consider profiling with nsight compute to identify specific bottlenecks.")%string])%list
        else Ok recommendations
    end ;;
  let recommendations :=
    match filter (fun b => String.eqb (Bottleneck.severity b) "critical") bottlenecks with
    | first :: _ =>
        (recommendations ++
         [("Critical issue: " ++ Bottleneck.description first ++ ". "
           ++ "This should be the top optimization priority.")%string])%list
    | [] => recommendations
    end in
  sizes <- matrix_sizes (BenchmarkSuite.results suite) ;;
  match sizes with
  | [] => Ok recommendations
  | s0 :: rest =>
      let max_size := fold_left Z.max rest s0 in
      if 8192 <=? max_size then
        Ok (recommendations ++
            [("Large matrix sizes detected. Consider tiling strategies "
              ++ "or hierarchical algorithms for better cache utilization.")%string])%list
      else Ok recommendations
  end.

(** *** The complete analysis *)

(** The distinct metric types, each once. *)
Fixpoint distinct (l : list string) : list string :=
  match l with
  | [] => []
  | x :: l' => x :: filter (fun y => negb (String.eqb x y)) (distinct l')
  end.

Fixpoint metrics_of (suite : BenchmarkSuite.t) (types : list string)
  : result (list (string * PerformanceMetrics.t)) :=
  match types with
  | [] => Ok []
  | metric_type :: rest =>
      let values :=
        map BenchmarkResult.value
            (filter (fun r => String.eqb (BenchmarkResult.metric_type r) metric_type)
                    (BenchmarkSuite.results suite)) in
      match values with
      | [] => metrics_of suite rest
      | _ =>
          m <- calculate_metrics values ;;
          ms <- metrics_of suite rest ;;
          Ok ((metric_type, m) :: ms)
      end
  end.

Fixpoint compare_with (prev_suite : BenchmarkSuite.t) (results : list BenchmarkResult.t)
         (comparisons : list ComparisonResult.t) : result (list ComparisonResult.t) :=
  match results with
  | [] => Ok comparisons
  | r :: rest =>
      match BenchmarkSuite.get_metric prev_suite (BenchmarkResult.name r) with
      | Some prev_result =>
          if String.eqb (BenchmarkResult.metric_type prev_result)
                        (BenchmarkResult.metric_type r)
          then
            comparison <- compare_results prev_result r ;;
            compare_with prev_suite rest (comparisons ++ [comparison])%list
          else compare_with prev_suite rest comparisons
      | None => compare_with prev_suite rest comparisons
      end
  end.

Definition count {A : Type} (p : A -> bool) (l : list A) : nat :=
  List.length (filter p l).

(** [" ".join(parts)] *)
Fixpoint join (sep : string) (parts : list string) : string :=
  match parts with
  | [] => ""
  | [x] => x
  | x :: rest => x ++ sep ++ join sep rest
  end.

Definition when (b : bool) (x : string) : list string := if b then [x] else [].

Definition summarize (suite : BenchmarkSuite.t) (bottlenecks : list Bottleneck.t)
           (comparisons : list ComparisonResult.t) : string :=
  let n := List.length (BenchmarkSuite.results suite) in
  let critical_count := count (fun b => String.eqb (Bottleneck.severity b) "critical") bottlenecks in
  let high_count := count (fun b => String.eqb (Bottleneck.severity b) "high") bottlenecks in
  let improvements := count ComparisonResult.is_improvement comparisons in
  let regressions := count ComparisonResult.is_regression comparisons in
  let summary_parts :=
    (when (negb (Nat.eqb n 0)) ("Analyzed " ++ str_of_nat n ++ " benchmark results.")
     ++ when (negb (Nat.eqb critical_count 0))
             ("Found " ++ str_of_nat critical_count ++ " critical bottleneck(s).")
     ++ when (negb (Nat.eqb high_count 0))
             ("Found " ++ str_of_nat high_count ++ " high-priority issue(s).")
     ++ when (negb (Nat.eqb improvements 0))
             (str_of_nat improvements ++ " metric(s) improved vs previous run.")
     ++ when (negb (Nat.eqb regressions 0))
             ("⚠️  " ++ str_of_nat regressions ++ " metric(s) regressed vs previous run."))%list in
  match summary_parts with
  | [] => "Benchmark analysis complete."
  | _ => join " " summary_parts
  end.

(** [analyze(self, suite)]: the report and the analyzer's history after the
    call. An exception leaves the history as it was. *)
Definition analyze (self : history) (suite : BenchmarkSuite.t)
  : result (AnalysisReport.t * history) :=
  metrics_by_type <-
    metrics_of suite (distinct (map BenchmarkResult.metric_type (BenchmarkSuite.results suite))) ;;
  bottlenecks <- identify_bottlenecks suite ;;
  recommendations <- generate_recommendations suite bottlenecks ;;
  comparisons <-
    match rev self with
    | prev_suite :: _ => compare_with prev_suite (BenchmarkSuite.results suite) []
    | [] => Ok []
    end ;;
  let summary := summarize suite bottlenecks comparisons in
  let self := add_to_history self suite in
  Ok (AnalysisReport.mk (BenchmarkSuite.name suite) metrics_by_type comparisons
                        bottlenecks recommendations summary
                        (BenchmarkSuite.results suite),
      self).

(** [analyze_benchmark(suite, analyzer)]; a missing analyzer is a fresh one. *)
Definition analyze_benchmark (suite : BenchmarkSuite.t) (analyzer : option history)
  : result (AnalysisReport.t * history) :=
  match analyzer with
  | Some a => analyze a suite
  | None => analyze init suite
  end.
End PerformanceAnalyzer.

(** ** formatters.py: [MetricFormatter] *)

Module MetricFormatter.
Import Py.

(** [format_number(value, precision=2, use_suffix=True)] *)
Definition format_number_with (value : float) (precision : nat) (use_suffix : bool) : string :=
  if negb use_suffix then format_f_grouped precision value
  else
    let abs_value := abs value in
    let sign := if (value <? 0)%float then "-" else "" in
    if fge abs_value 1e12 then sign ++ format_f precision (abs_value / 1e12)%float ++ "T"
    else if fge abs_value 1e9 then sign ++ format_f precision (abs_value / 1e9)%float ++ "B"
    else if fge abs_value 1e6 then sign ++ format_f precision (abs_value / 1e6)%float ++ "M"
    else if fge abs_value 1e3 then sign ++ format_f precision (abs_value / 1e3)%float ++ "K"
    else sign ++ format_f precision abs_value.

Definition format_number (value : float) : string := format_number_with value 2 true.

(** [format_percentage(value, precision=1, show_sign=True)] *)
Definition format_percentage_with (value : float) (precision : nat) (show_sign : bool) : string :=
  if (show_sign && fgt value 0)%bool then "+" ++ format_f precision value ++ "%"
  else format_f precision value ++ "%".

Definition format_percentage (value : float) : string := format_percentage_with value 1 true.

(** [format_performance(value, metric_type, precision=2)] *)
Definition format_performance (value : float) (metric_type : string) : string :=
  format_number_with value 2 false ++ " " ++ metric_type.

(** [format_speedup(speedup, precision=2)] *)
Definition format_speedup (speedup : float) : string := format_f 2 speedup ++ "x".
End MetricFormatter.

(** * Properties *)

(** ** Sample inputs *)

Definition nl : string := String Py.newline "".

Definition cuda_sample : string :=
  "Benchmarking 4096x4096 matrices..." ++ nl
  ++ "CUDA: 2939.45 GFLOPS (2.939 TFLOPS)" ++ nl
  ++ "CPU: 45.2 GFLOPS" ++ nl
  ++ "Best time: 46.76ms".

Definition cuda_sample_config : dict :=
  [("matrix_size", VInt 4096); ("matrix_dims", VStr "4096x4096")].

Definition cuda_sample_results : list BenchmarkResult.t :=
  [BenchmarkResult.mk "CUDA Performance (4096x4096)" "GFLOPS" 2939.45 cuda_sample_config;
   BenchmarkResult.mk "CUDA Performance (4096x4096)" "TFLOPS" 2.939 cuda_sample_config;
   BenchmarkResult.mk "CPU Performance (4096x4096)" "GFLOPS" 45.2 cuda_sample_config;
   BenchmarkResult.mk "Execution Time (4096x4096)" "ms" 46.76 cuda_sample_config].

(** C5: parsing the sample CUDA text yields exactly four results, in order:
    CUDA Performance GFLOPS = 2939.45, CUDA Performance TFLOPS = 2.939, CPU
    Performance GFLOPS = 45.2 and Execution Time ms = 46.76, each carrying
    the metadata matrix_dims = "4096x4096" and matrix_size = 4096. *)
Theorem cuda_parse_sample :
  CUDABenchmarkParser.parse cuda_sample
  = Py.Ok (BenchmarkSuite.mk "CUDA Benchmark Suite" cuda_sample_results cuda_sample_config)
  /\ List.length cuda_sample_results = 4%nat
  /\ Forall (fun r =>
               dict_get (BenchmarkResult.metadata r) "matrix_dims" = Some (VStr "4096x4096")
               /\ dict_get (BenchmarkResult.metadata r) "matrix_size" = Some (VInt 4096))
            cuda_sample_results.
Proof.
  split; [vm_compute; reflexivity|].
  split; [reflexivity|].
  repeat constructor.
Qed.
